(** * VistaraBI AI service: the KPI and goal route handlers

    A shallow embedding of [ai/routes/kpis.py] and [ai/routes/goals.py].
    Python floats are IEEE binary64 values ([PrimFloat.float]), [Dict[k, v]]
    is a finite map ([gmap]), pydantic models are records, and a handler that
    can either return a payload or raise is a function into [outcome].  The
    handlers are [async def] bodies without any [await], so each one is a
    function of its request alone.  [ai/routes/domain.py],
    [ai/routes/forecast.py] and the router wiring of [ai/app.py] are
    embedded the same way, after the fixtures. *)

From Stdlib Require Import PrimFloat ZArith QArith Ascii.
From stdpp Require Import gmap strings list relations.

(** Decimal float literals denote the nearest binary64 value, as in Python. *)
#[local] Set Warnings "-inexact-float".

Local Open Scope Z_scope.
Local Open Scope string_scope.
Local Open Scope stdpp_scope.
Local Open Scope list_scope.

(** ** Python values shared by the route modules *)

Module Py.

(** [typing.Any] as it occurs in the request and response payloads. *)
#[warnings="-register-all"] Inductive Any : Type :=
  | ANone
  | ABool (b : bool)
  | AInt (z : Z)
  | AFloat (x : float)
  | AStr (s : string)
  | AList (l : list Any)
  | ADict (d : gmap string Any).

(** Exceptions a handler could leave through.  [HTTPException] is the one
    the route modules import; the four domain errors are the taxonomy the
    specification names; [ZeroDivisionError] is Python's own. *)
Inductive exn : Type :=
  | HTTPException (status_code : Z) (detail : string)
  | UnmappableGoalError
  | CyclicDependencyError (cycle : list string)
  | InvalidGoalParametersError
  | InvalidTimelineWindowError
  | ZeroDivisionError.

(** What a call does: [return] a value or [raise]. *)
Inductive outcome (A : Type) : Type :=
  | Return (a : A)
  | Raise (e : exn).
Global Arguments Return {A} a.
Global Arguments Raise {A} e.

Definition raises {A} (o : outcome A) : bool :=
  match o with Return _ => false | Raise _ => true end.

End Py.
Import Py.

(** ** routes/kpis.py *)

Module Kpis.

Record KPIRequest := {
  domain : string;
  columns : list string;
  data_sample : gmap string Any
}.

Record KPI := {
  name : string;
  description : string;
  formula : string;
  category : string;
  priority : Z
}.

Record KPIResponse := {
  kpis : list KPI;
  recommendations : list string
}.

Definition revenue_growth_rate : KPI := {|
  name := "Revenue Growth Rate";
  description := "Year-over-year revenue growth percentage";
  formula := "((current_revenue - previous_revenue) / previous_revenue) * 100";
  category := "Financial";
  priority := 1
|}.

Definition customer_acquisition_cost : KPI := {|
  name := "Customer Acquisition Cost";
  description := "Average cost to acquire a new customer";
  formula := "total_marketing_spend / new_customers";
  category := "Marketing";
  priority := 2
|}.

(** [POST /extract]: the placeholder body, a literal payload. *)
Definition extract_kpis (request : KPIRequest) : outcome KPIResponse :=
  Return {|
    kpis := [ revenue_growth_rate; customer_acquisition_cost ];
    recommendations :=
      [ "Add customer_id column to track customer metrics";
        "Include date column for time-based analysis" ]
  |}.

(** [GET /library/{domain}]: an untyped dict, so a map from keys to [Any]. *)
Definition get_kpi_library (domain : string) : outcome (gmap string Any) :=
  Return {[ "domain" := AStr domain; "kpis" := AList [] ]}.

End Kpis.

(** ** routes/goals.py *)

Module Goals.

Record GoalRequest := {
  goal_text : string;
  target_value : float;
  current_value : float;
  deadline : string;
  available_kpis : list string
}.

Record Action := {
  title : string;
  description : string;
  priority : string;
  impact : string;
  effort : string
}.

Record GoalResponse := {
  mapped_kpis : list string;
  actions : list Action;
  dependencies : gmap string (list string);
  timeline : list (gmap string Any)
}.

(** [POST /map]: the placeholder body, a literal payload. *)
Definition map_goal_to_kpis (request : GoalRequest) : outcome GoalResponse :=
  Return {|
    mapped_kpis := [ "Revenue Growth Rate"; "Customer Acquisition Cost" ];
    actions :=
      [ {| title := "Optimize Marketing Campaigns";
           description := "Focus on high-performing channels to reduce CAC";
           priority := "high";
           impact := "high";
           effort := "medium" |};
        {| title := "Improve Conversion Rate";
           description := "A/B test landing pages to increase conversions";
           priority := "medium";
           impact := "medium";
           effort := "low" |} ];
    dependencies :=
      {[ "Revenue Growth Rate" :=
           [ "Customer Acquisition Cost"; "Average Order Value" ] ]};
    timeline :=
      [ {[ "week" := AInt 1;
           "actions" := AList [ AStr "Optimize Marketing Campaigns" ];
           "expected_impact" := AFloat 0.15%float ]} ]
  |}.

(** [POST /estimate]: an untyped dict. *)
Definition estimate_goal_feasibility (request : GoalRequest)
  : outcome (gmap string Any) :=
  Return {[ "feasible" := ABool true;
            "confidence" := AFloat 0.75%float;
            "reasoning" := AStr "Based on current trends, this goal is achievable";
            "recommendations" := AList [] ]}.

End Goals.

(** ** The engine the specification describes

    The handlers above consult no KPI library, keyword lexicon or dependency
    table.  To compare their payloads with the specification, its tables are
    taken as data and its formulas are written out here, over exact rationals
    for the scores. *)

Module Spec.

(** Modelled from the spec: the per-KPI columns of the KPI library that
    ranking reads (data model, KPIDefinition), keyed by KPI name; the
    source has no library. *)
Record KPILibrary := {
  domainAffinity : string → string → Q;
  requiredFields : string → gset string
}.

(** Modelled from the spec: the fixed weights of ranking step 3. *)
Definition w1 : Q := 6 # 10.
Definition w2 : Q := 4 # 10.

(** Modelled from the spec: ranking step 2,
    [coverage = |requiredFields ∩ columns| / |requiredFields|]; the library
    invariant keeps [requiredFields] non-empty, and rational division makes
    the quotient 0 where it is empty. *)
Definition matchedFields (lib : KPILibrary) (columns : list string)
    (kpi : string) : gset string :=
  requiredFields lib kpi ∩ list_to_set columns.

Definition coverage (lib : KPILibrary) (columns : list string)
    (kpi : string) : Q :=
  (inject_Z (Z.of_nat (size (matchedFields lib columns kpi)))
   / inject_Z (Z.of_nat (size (requiredFields lib kpi))))%Q.

(** Modelled from the spec: ranking step 3,
    [relevanceScore = w1 * domainAffinity[domain] + w2 * coverage]. *)
Definition relevanceScore (lib : KPILibrary) (domain : string)
    (columns : list string) (kpi : string) : Q :=
  (w1 * domainAffinity lib kpi domain + w2 * coverage lib columns kpi)%Q.

(** The tie-break of ranking step 5 on the fields a returned KPI carries:
    [priority] ascending, then [name] lexicographically. *)
Definition tie_break (a b : Kpis.KPI) : bool :=
  Z.ltb (Kpis.priority a) (Kpis.priority b)
  || (Z.eqb (Kpis.priority a) (Kpis.priority b)
      && String.leb (Kpis.name a) (Kpis.name b)).

(** Modelled from the spec: ranking step 5, [a] may stand before [b] when
    its key is larger, or equal with the tie broken towards [a]. *)
Definition precedes (key : string → Q) (a b : Kpis.KPI) : bool :=
  match (key (Kpis.name a) ?= key (Kpis.name b))%Q with
  | Gt => true
  | Eq => tie_break a b
  | Lt => false
  end.

(** A list is ranked when every entry may stand before all later ones. *)
Fixpoint ranked (before : Kpis.KPI → Kpis.KPI → bool) (l : list Kpis.KPI)
    : bool :=
  match l with
  | [] => true
  | a :: rest => forallb (before a) rest && ranked before rest
  end.

Definition ranked_by_relevance (lib : KPILibrary) (domain : string)
    (columns : list string) : list Kpis.KPI → bool :=
  ranked (precedes (relevanceScore lib domain columns)).

(** Ranking step 4, the best-effort path: by [domainAffinity] alone. *)
Definition ranked_by_affinity (lib : KPILibrary) (domain : string)
    : list Kpis.KPI → bool :=
  ranked (precedes (λ kpi, domainAffinity lib kpi domain)).

(** Modelled from the spec: a keyword lexicon (keyword, category) and the
    keywords of it that occur among the words of a goal text; the source
    has no lexicon. *)
Definition keyword_matches (lexicon : list (string * string))
    (goal_text : string) : list string :=
  filter (λ kw, kw ∈ String.words goal_text) (lexicon.*1).

(** Modelled from the spec: a [dependsOn] table as a directed graph, in
    the shape of the response's [dependencies]; it contains a cycle when
    some KPI reaches itself along one or more edges. *)
Definition depends (g : gmap string (list string)) (a b : string) : Prop :=
  ∃ ds, g !! a = Some ds ∧ b ∈ ds.

Definition cyclic (g : gmap string (list string)) : Prop :=
  ∃ a, tc (depends g) a a.

(** Modelled from the spec: dependency-graph construction.  For each
    mapped KPI its [dependsOn] list is looked up in the library table, and
    an edge KPI→dependency is kept when the dependency is itself in
    [availableKPIs]; the source builds no graph. *)
Definition dependency_graph (dependsOn : gmap string (list string))
    (mapped available : list string) : gmap string (list string) :=
  list_to_map
    ((λ kpi, (kpi, filter (λ d, d ∈ available)
                     (default [] (dependsOn !! kpi)))) <$> mapped).

(** Every dependency name of a [dependencies] mapping lies in [names]. *)
Definition dependencies_within (g : gmap string (list string))
    (names : list string) : Prop :=
  ∀ k ds d, g !! k = Some ds → d ∈ ds → d ∈ names.

(** The [expected_impact] entry of a weekly bucket. *)
Definition expected_impact (bucket : gmap string Any) : option float :=
  match bucket !! "expected_impact" with
  | Some (AFloat x) => Some x
  | _ => None
  end.

(** The sum over all buckets, left to right from 0 as Python's [sum];
    [None] when a bucket carries no float impact. *)
Definition cumulative_impact (timeline : list (gmap string Any))
    : option float :=
  foldl (λ acc bucket,
           match acc, expected_impact bucket with
           | Some s, Some x => Some (PrimFloat.add s x)
           | _, _ => None
           end)
        (Some 0%float) timeline.

(** Within tolerance [1e-6] of [1.0]. *)
Definition normalized (total : float) : bool :=
  PrimFloat.leb (PrimFloat.abs (PrimFloat.sub total 1%float)) 1e-6%float.

(** Inputs the feasibility estimator is to reject:
    [currentValue <= 0] or [targetValue <= 0]. *)
Definition invalid_goal_parameters (request : Goals.GoalRequest) : bool :=
  PrimFloat.leb (Goals.current_value request) 0%float
  || PrimFloat.leb (Goals.target_value request) 0%float.

End Spec.

(** ** Fixtures *)

Module Fixtures.

(** A library in which Customer Acquisition Cost outranks Revenue Growth
    Rate for the marketing domain. *)
Definition marketing_library : Spec.KPILibrary := {|
  Spec.domainAffinity kpi domain :=
    if negb (String.eqb domain "marketing") then 0%Q
    else if String.eqb kpi "Customer Acquisition Cost" then (9 # 10)%Q
    else if String.eqb kpi "Revenue Growth Rate" then (2 # 10)%Q
    else 0%Q;
  Spec.requiredFields kpi :=
    if String.eqb kpi "Customer Acquisition Cost"
    then {[ "marketing_spend"; "new_customers" ]}
    else if String.eqb kpi "Revenue Growth Rate" then {[ "revenue" ]}
    else ∅
|}.

(** Every required field of both KPIs is among the columns. *)
Definition marketing_request : Kpis.KPIRequest := {|
  Kpis.domain := "marketing";
  Kpis.columns := [ "revenue"; "marketing_spend"; "new_customers" ];
  Kpis.data_sample := ∅
|}.

Definition no_columns_request : Kpis.KPIRequest := {|
  Kpis.domain := "marketing";
  Kpis.columns := [];
  Kpis.data_sample := ∅
|}.

(** The library of the specification's retail scenario. *)
Definition retail_library : Spec.KPILibrary := {|
  Spec.domainAffinity kpi domain :=
    if negb (String.eqb domain "retail") then 0%Q
    else if String.eqb kpi "Revenue Growth Rate" then (9 # 10)%Q
    else if String.eqb kpi "Customer Acquisition Cost" then (5 # 10)%Q
    else 0%Q;
  Spec.requiredFields kpi :=
    if String.eqb kpi "Revenue Growth Rate" then {[ "revenue" ]}
    else if String.eqb kpi "Customer Acquisition Cost"
    then {[ "marketing_spend"; "new_customers" ]}
    else ∅
|}.

Definition retail_request : Kpis.KPIRequest := {|
  Kpis.domain := "retail";
  Kpis.columns := [ "revenue"; "date" ];
  Kpis.data_sample := {[ "revenue" := AFloat 1200%float ]}
|}.

(** The lexicon entries the specification gives as examples. *)
Definition lexicon : list (string * string) :=
  [ ("revenue", "Financial"); ("growth", "Financial");
    ("cost", "Marketing"); ("acquisition", "Marketing") ].

Definition goal (text : string) (target current : float)
    (available : list string) : Goals.GoalRequest := {|
  Goals.goal_text := text;
  Goals.target_value := target;
  Goals.current_value := current;
  Goals.deadline := "2026-12-31";
  Goals.available_kpis := available
|}.

Definition efficiency_goal : Goals.GoalRequest :=
  goal "improve efficiency" 120%float 100%float
       [ "Revenue Growth Rate"; "Customer Acquisition Cost" ].

Definition revenue_goal : Goals.GoalRequest :=
  goal "increase revenue growth" 120%float 100%float
       [ "Revenue Growth Rate"; "Customer Acquisition Cost" ].

Definition zero_current_goal : Goals.GoalRequest :=
  goal "increase revenue growth" 120%float 0%float
       [ "Revenue Growth Rate" ].

Definition negative_target_goal : Goals.GoalRequest :=
  goal "increase revenue growth" (-5)%float 100%float
       [ "Revenue Growth Rate" ].

Definition flat_goal : Goals.GoalRequest :=
  goal "hold revenue" 100%float 100%float [ "Revenue Growth Rate" ].

(** A deliberately cyclic [dependsOn] table over the mapped KPIs: the
    entry of Revenue Growth Rate is the one the handler's payload lists, and
    Customer Acquisition Cost depends back on Revenue Growth Rate. *)
Definition cyclic_dependsOn : gmap string (list string) :=
  {[ "Revenue Growth Rate" :=
       [ "Customer Acquisition Cost"; "Average Order Value" ];
     "Customer Acquisition Cost" := [ "Revenue Growth Rate" ] ]}.

End Fixtures.

(** ** routes/domain.py *)

Module Domain.

Record DomainRequest := {
  data : gmap string Any;
  columns : list string
}.

Record DomainResponse := {
  domain : string;
  confidence : float;
  suggestions : list string
}.

(** [POST /detect]: the placeholder body, a literal payload. *)
Definition detect_domain (request : DomainRequest) : outcome DomainResponse :=
  Return {|
    domain := "retail";
    confidence := 0.85%float;
    suggestions :=
      [ "Consider adding product_id column"; "Revenue data looks good" ]
  |}.

(** [GET /domains]: takes no argument and returns an untyped dict. *)
Definition get_available_domains (_ : unit) : outcome (gmap string Any) :=
  Return {[ "domains" :=
              AList [ AStr "retail"; AStr "finance"; AStr "healthcare";
                      AStr "manufacturing"; AStr "logistics";
                      AStr "marketing"; AStr "hr"; AStr "sales" ] ]}.

End Domain.

(** ** routes/forecast.py *)

Module Forecast.

(** [confidence_interval] is [Optional[float]] with default 0.95, which
    request parsing fills in when the field is absent. *)
Record ForecastRequest := {
  data : list (gmap string Any);
  target_column : string;
  periods : Z;
  confidence_interval : option float
}.

Definition default_confidence_interval : option float := Some 0.95%float.

Record ForecastResponse := {
  predictions : list (gmap string Any);
  confidence_intervals : list (gmap string Any);
  model_used : string;
  accuracy_metrics : gmap string float
}.

(** [POST /predict]: the placeholder body, a literal payload. *)
Definition generate_forecast (request : ForecastRequest)
  : outcome ForecastResponse :=
  Return {|
    predictions :=
      [ {[ "date" := AStr "2024-01-01"; "value" := AFloat 10500.50%float ]};
        {[ "date" := AStr "2024-02-01"; "value" := AFloat 11200.75%float ]} ];
    confidence_intervals :=
      [ {[ "date" := AStr "2024-01-01";
           "lower" := AFloat 9500.0%float;
           "upper" := AFloat 11500.0%float ]};
        {[ "date" := AStr "2024-02-01";
           "lower" := AFloat 10200.0%float;
           "upper" := AFloat 12200.0%float ]} ];
    model_used := "prophet";
    accuracy_metrics :=
      {[ "mae" := 250.5%float; "rmse" := 320.8%float; "mape" := 2.5%float ]}
  |}.

(** [POST /scenarios]: an untyped dict in, an untyped dict out. *)
Definition generate_scenarios (data : gmap string Any)
  : outcome (gmap string Any) :=
  Return {[ "scenarios" :=
              AList
                [ ADict {[ "name" := AStr "Optimistic";
                           "assumptions" :=
                             ADict {[ "growth_rate" := AFloat 0.15%float ]};
                           "forecast" := AList [] ]};
                  ADict {[ "name" := AStr "Pessimistic";
                           "assumptions" :=
                             ADict {[ "growth_rate" := AFloat 0.05%float ]};
                           "forecast" := AList [] ]} ] ]}.

End Forecast.

(** ** app.py *)

Module App.

(** A route as a decorator declares it: HTTP method, path and the name of
    the handler function. *)
Record Route := {
  method : string;
  path : string;
  endpoint : string
}.

#[global] Instance Route_eq_dec : EqDecision Route.
Proof. solve_decision. Defined.

(** The [router] object of each route module, from its decorators. *)
Definition domain_router : list Route :=
  [ {| method := "POST"; path := "/detect"; endpoint := "detect_domain" |};
    {| method := "GET"; path := "/domains";
       endpoint := "get_available_domains" |} ].

Definition kpis_router : list Route :=
  [ {| method := "POST"; path := "/extract"; endpoint := "extract_kpis" |};
    {| method := "GET"; path := "/library/{domain}";
       endpoint := "get_kpi_library" |} ].

Definition chat_router : list Route :=
  [ {| method := "POST"; path := "/"; endpoint := "chat" |};
    {| method := "POST"; path := "/suggestions";
       endpoint := "get_suggestions" |} ].

Definition goals_router : list Route :=
  [ {| method := "POST"; path := "/map"; endpoint := "map_goal_to_kpis" |};
    {| method := "POST"; path := "/estimate";
       endpoint := "estimate_goal_feasibility" |} ].

Definition forecast_router : list Route :=
  [ {| method := "POST"; path := "/predict";
       endpoint := "generate_forecast" |};
    {| method := "POST"; path := "/scenarios";
       endpoint := "generate_scenarios" |} ].

(** One [app.include_router(router, prefix=..., tags=[tag])] call. *)
Record Included := {
  router : list Route;
  prefix : string;
  tag : string
}.

(** The five calls, in source order. *)
Definition included_routers : list Included :=
  [ {| router := domain_router; prefix := "/api/ai/domain"; tag := "domain" |};
    {| router := kpis_router; prefix := "/api/ai/kpis"; tag := "kpis" |};
    {| router := chat_router; prefix := "/api/ai/chat"; tag := "chat" |};
    {| router := goals_router; prefix := "/api/ai/goals"; tag := "goals" |};
    {| router := forecast_router; prefix := "/api/ai/forecast";
       tag := "forecast" |} ].

(** Including a router mounts each of its routes under the prefix. *)
Definition include_router (inc : Included) : list Route :=
  (λ r, {| method := method r;
           path := prefix inc +:+ path r;
           endpoint := endpoint r |}) <$> router inc.

(** The routes the application declares: the included routers, then the
    two [@app.get] handlers. *)
Definition routes : list Route :=
  concat (include_router <$> included_routers)
  ++ [ {| method := "GET"; path := "/"; endpoint := "root" |};
       {| method := "GET"; path := "/health"; endpoint := "health" |} ].

(** Path templates.  A request path is matched segment by segment: a
    template segment written in braces, as in [/library/{domain}], is a path
    parameter and matches any non-empty segment; any other segment matches
    itself only. *)
Fixpoint segments_go (current rest : string) : list string :=
  match rest with
  | EmptyString => [ String.rev current ]
  | String c rest' =>
      if Ascii.eqb c "/"%char
      then String.rev current :: segments_go "" rest'
      else segments_go (String c current) rest'
  end.

Definition segments (p : string) : list string := segments_go "" p.

Definition is_param (segment : string) : bool :=
  match segment with
  | String c inner =>
      Ascii.eqb c "{"%char
      && match String.rev inner with
         | String c' _ => Ascii.eqb c' "}"%char
         | EmptyString => false
         end
  | EmptyString => false
  end.

Definition segment_matches (template segment : string) : bool :=
  if is_param template then negb (String.eqb segment "")
  else String.eqb template segment.

Fixpoint segments_match (templates path_segments : list string) : bool :=
  match templates, path_segments with
  | [], [] => true
  | t :: templates', s :: path_segments' =>
      segment_matches t s && segments_match templates' path_segments'
  | _, _ => false
  end.

Definition matches (template request_path : string) : bool :=
  segments_match (segments template) (segments request_path).

(** Two templates overlap when some path can match both: they have the
    same number of segments and, place by place, two parameters, a
    parameter and a non-empty literal, or two equal literals. *)
Definition segment_overlap (t1 t2 : string) : bool :=
  match is_param t1, is_param t2 with
  | true, true => true
  | true, false => negb (String.eqb t2 "")
  | false, true => negb (String.eqb t1 "")
  | false, false => String.eqb t1 t2
  end.

Fixpoint segments_overlap (ts1 ts2 : list string) : bool :=
  match ts1, ts2 with
  | [], [] => true
  | t1 :: ts1', t2 :: ts2' => segment_overlap t1 t2 && segments_overlap ts1' ts2'
  | _, _ => false
  end.

Definition overlap (template1 template2 : string) : bool :=
  segments_overlap (segments template1) (segments template2).

(** [GET /]; [now] is [datetime.now().isoformat()], the clock reading at
    the call. *)
Definition root (now : string) : outcome (gmap string Any) :=
  Return {[ "message" := AStr "VistaraBI AI Service";
            "version" := AStr "1.0.0";
            "status" := AStr "operational";
            "timestamp" := AStr now;
            "endpoints" :=
              ADict {[ "domain" := AStr "/api/ai/domain";
                       "kpis" := AStr "/api/ai/kpis";
                       "chat" := AStr "/api/ai/chat";
                       "goals" := AStr "/api/ai/goals";
                       "forecast" := AStr "/api/ai/forecast" ]} ]}.

End App.

(** ** Reading untyped payloads

    What a client does with a [Dict[str, Any]]: look a key up and use the
    value at the type it expects. *)

Module Client.

Definition get_str (key : string) (d : gmap string Any) : option string :=
  match d !! key with Some (AStr s) => Some s | _ => None end.

Definition get_float (key : string) (d : gmap string Any) : option float :=
  match d !! key with Some (AFloat x) => Some x | _ => None end.

Definition get_list (key : string) (d : gmap string Any)
  : option (list Any) :=
  match d !! key with Some (AList l) => Some l | _ => None end.

Definition get_dict (key : string) (d : gmap string Any)
  : option (gmap string Any) :=
  match d !! key with Some (ADict m) => Some m | _ => None end.

Definition as_str (a : Any) : option string :=
  match a with AStr s => Some s | _ => None end.

Definition as_dict (a : Any) : option (gmap string Any) :=
  match a with ADict m => Some m | _ => None end.

(** The endpoints dict of a root response; empty if there is none. *)
Definition advertised (o : outcome (gmap string Any)) : gmap string Any :=
  match o with
  | Return response => default ∅ (get_dict "endpoints" response)
  | Raise _ => ∅
  end.

(** The action titles the buckets of a timeline schedule, week by week. *)
Definition scheduled (timeline : list (gmap string Any)) : list string :=
  concat ((λ bucket, omap as_str (default [] (get_list "actions" bucket)))
            <$> timeline).

(** One of the three levels an action's priority, impact and effort take. *)
Definition is_level (s : string) : bool :=
  String.eqb s "low" || String.eqb s "medium" || String.eqb s "high".

(** A prediction and a confidence interval are for the same date, and the
    predicted value lies between the interval's bounds. *)
Definition within_interval (prediction interval : gmap string Any) : bool :=
  match get_str "date" prediction, get_float "value" prediction,
        get_str "date" interval, get_float "lower" interval,
        get_float "upper" interval with
  | Some d, Some v, Some d', Some lo, Some hi =>
      String.eqb d d' && PrimFloat.leb lo v && PrimFloat.leb v hi
  | _, _, _, _, _ => false
  end.

(** Every string of the list is strictly below all later ones. *)
Fixpoint ascending (l : list string) : bool :=
  match l with
  | [] => true
  | s :: rest => forallb (String.ltb s) rest && ascending rest
  end.

(** The growth rate a what-if scenario assumes. *)
Definition growth_rate (scenario : gmap string Any) : option float :=
  match get_dict "assumptions" scenario with
  | Some assumptions => get_float "growth_rate" assumptions
  | None => None
  end.

End Client.

(** ** Forecast requests *)

Module Requests.

Definition three_periods : Forecast.ForecastRequest := {|
  Forecast.data :=
    [ {[ "date" := AStr "2023-11-01"; "revenue" := AFloat 9800%float ]};
      {[ "date" := AStr "2023-12-01"; "revenue" := AFloat 10100%float ]} ];
  Forecast.target_column := "revenue";
  Forecast.periods := 3;
  Forecast.confidence_interval := Forecast.default_confidence_interval
|}.

Definition no_periods : Forecast.ForecastRequest := {|
  Forecast.data := [];
  Forecast.target_column := "revenue";
  Forecast.periods := 0;
  Forecast.confidence_interval := None
|}.

End Requests.

(** ** Sanity checks of the definitions on concrete inputs *)

Example retail_scores :
  Qeq_bool (Spec.coverage Fixtures.retail_library
              [ "revenue"; "date" ] "Revenue Growth Rate") 1 = true
  ∧ Qeq_bool (Spec.coverage Fixtures.retail_library
                [ "revenue"; "date" ] "Customer Acquisition Cost") 0 = true
  ∧ Qeq_bool (Spec.relevanceScore Fixtures.retail_library "retail"
                [ "revenue"; "date" ] "Revenue Growth Rate") (94 # 100) = true
  ∧ Qeq_bool (Spec.relevanceScore Fixtures.retail_library "retail"
                [ "revenue"; "date" ] "Customer Acquisition Cost") (30 # 100) = true.
Proof. repeat split; vm_compute; reflexivity. Qed.

Example retail_scenario_ranked :
  ∃ response,
    Kpis.extract_kpis Fixtures.retail_request = Return response
    ∧ Spec.ranked_by_relevance Fixtures.retail_library
        (Kpis.domain Fixtures.retail_request)
        (Kpis.columns Fixtures.retail_request) (Kpis.kpis response) = true.
Proof. eexists. split; [reflexivity | vm_compute; reflexivity]. Qed.

Example revenue_goal_matches :
  Spec.keyword_matches Fixtures.lexicon "increase revenue growth"
  = [ "revenue"; "growth" ].
Proof. vm_compute. reflexivity. Qed.

(** ** Properties of routes/kpis.py *)

Section KpisProperties.
Import Kpis.

Lemma extract_kpis_returns (request : KPIRequest) :
  ∃ response,
    extract_kpis request = Return response
    ∧ kpis response = [ revenue_growth_rate; customer_acquisition_cost ].
Proof. eexists. split; reflexivity. Qed.

(** The two returned entries are ranked under a key exactly when the key
    of the second does not exceed the key of the first: their priorities
    1 and 2 settle a tie in favour of the order returned. *)
Lemma ranked_payload (key : string → Q) :
  Spec.ranked (Spec.precedes key)
    [ revenue_growth_rate; customer_acquisition_cost ] = true
  ↔ (key "Customer Acquisition Cost" <= key "Revenue Growth Rate")%Q.
Proof.
  cbn [Spec.ranked forallb]. unfold Spec.precedes.
  change (name revenue_growth_rate) with "Revenue Growth Rate".
  change (name customer_acquisition_cost) with "Customer Acquisition Cost".
  rewrite Qle_alt.
  rewrite <- (Qcompare_antisym (key "Customer Acquisition Cost")).
  destruct (key "Customer Acquisition Cost" ?= key "Revenue Growth Rate")%Q;
    cbn; split; congruence.
Qed.

(** C1: two calls of [extract_kpis] return the same response, whatever the
    two requests are, so in particular for identical requests: the same KPI
    list, Revenue Growth Rate then Customer Acquisition Cost, in the same
    order, and the same recommendations. *)
Theorem extract_kpis_deterministic (request1 request2 : KPIRequest) :
  extract_kpis request1 = extract_kpis request2
  ∧ ∃ response,
      extract_kpis request1 = Return response
      ∧ extract_kpis request2 = Return response
      ∧ kpis response = [ revenue_growth_rate; customer_acquisition_cost ].
Proof.
  split; [reflexivity |].
  destruct (extract_kpis_returns request1) as (response & Hret & Hkpis).
  exists response. split; [exact Hret |]. split; [exact Hret | exact Hkpis].
Qed.

(** C2, at a library and column set that score Customer Acquisition Cost
    0.94 and Revenue Growth Rate 0.52 (both fully covered): the returned
    list has Revenue Growth Rate first, so it is not in descending order of
    relevanceScore. *)
Lemma extract_kpis_not_by_relevance :
  Qeq_bool
    (Spec.relevanceScore Fixtures.marketing_library
       (domain Fixtures.marketing_request)
       (columns Fixtures.marketing_request) "Customer Acquisition Cost")
    (94 # 100) = true
  ∧ Qeq_bool
      (Spec.relevanceScore Fixtures.marketing_library
         (domain Fixtures.marketing_request)
         (columns Fixtures.marketing_request) "Revenue Growth Rate")
      (52 # 100) = true
  ∧ ∃ response,
      extract_kpis Fixtures.marketing_request = Return response
      ∧ kpis response = [ revenue_growth_rate; customer_acquisition_cost ]
      ∧ Spec.ranked_by_relevance Fixtures.marketing_library
          (domain Fixtures.marketing_request)
          (columns Fixtures.marketing_request) (kpis response) = false.
Proof.
  split; [vm_compute; reflexivity |]. split; [vm_compute; reflexivity |].
  eexists. split; [reflexivity |]. split; [reflexivity |].
  vm_compute. reflexivity.
Qed.

(** C2, amended: for every library, domain and column set, [extract_kpis]
    returns Revenue Growth Rate then Customer Acquisition Cost, in
    ascending priority; that is the descending relevanceScore order
    exactly when the library scores the former at least as high as the
    latter. *)
Theorem extract_kpis_order (lib : Spec.KPILibrary) (request : KPIRequest) :
  ∃ response,
    extract_kpis request = Return response
    ∧ kpis response = [ revenue_growth_rate; customer_acquisition_cost ]
    ∧ Spec.ranked Spec.tie_break (kpis response) = true
    ∧ (Spec.ranked_by_relevance lib (domain request) (columns request)
         (kpis response) = true
       ↔ (Spec.relevanceScore lib (domain request) (columns request)
            "Customer Acquisition Cost"
          <= Spec.relevanceScore lib (domain request) (columns request)
               "Revenue Growth Rate")%Q).
Proof.
  destruct (extract_kpis_returns request) as (response & Hret & Hkpis).
  exists response. rewrite Hkpis. repeat split; try done.
  all: unfold Spec.ranked_by_relevance; apply ranked_payload.
Qed.

(** C7, at an empty column set and a library whose marketing affinity is
    0.9 for Customer Acquisition Cost and 0.2 for Revenue Growth Rate:
    the returned list is not ranked by domainAffinity. *)
Lemma extract_kpis_not_by_affinity :
  columns Fixtures.no_columns_request = []
  ∧ ∃ response,
      extract_kpis Fixtures.no_columns_request = Return response
      ∧ Spec.ranked_by_affinity Fixtures.marketing_library
          (domain Fixtures.no_columns_request) (kpis response) = false.
Proof.
  split; [reflexivity |].
  eexists. split; [reflexivity | vm_compute; reflexivity].
Qed.

(** C7, amended: when the column set is empty, [extract_kpis] raises
    nothing and returns its two fixed entries (no more than three), in
    ascending priority; none of their required fields is matched by the
    empty column set; they are ranked by domainAffinity exactly when the
    library gives Revenue Growth Rate at least the affinity of Customer
    Acquisition Cost. *)
Theorem extract_kpis_no_columns (lib : Spec.KPILibrary)
    (request : KPIRequest) :
  columns request = [] →
  raises (extract_kpis request) = false
  ∧ ∃ response,
      extract_kpis request = Return response
      ∧ kpis response = [ revenue_growth_rate; customer_acquisition_cost ]
      ∧ (length (kpis response) ≤ 3)%nat
      ∧ (∀ kpi, kpi ∈ kpis response →
           Spec.matchedFields lib (columns request) (name kpi) = ∅)
      ∧ Spec.ranked Spec.tie_break (kpis response) = true
      ∧ (Spec.ranked_by_affinity lib (domain request) (kpis response) = true
         ↔ (Spec.domainAffinity lib "Customer Acquisition Cost" (domain request)
            <= Spec.domainAffinity lib "Revenue Growth Rate" (domain request))%Q).
Proof.
  intros Hcolumns. split; [reflexivity |].
  destruct (extract_kpis_returns request) as (response & Hret & Hkpis).
  exists response. rewrite Hkpis, Hcolumns.
  split; [exact Hret |]. split; [reflexivity |]. split; [cbn; lia |].
  split; [| split; [reflexivity |]].
  - intros kpi _. unfold Spec.matchedFields.
    rewrite list_to_set_nil. apply (right_absorb_L ∅ (∩)).
  - unfold Spec.ranked_by_affinity.
    apply (ranked_payload (λ kpi, Spec.domainAffinity lib kpi (domain request))).
Qed.

(** The empty-column request against the retail library. *)
Lemma extract_kpis_no_columns_witness :
  columns Fixtures.no_columns_request = []
  ∧ raises (extract_kpis Fixtures.no_columns_request) = false
  ∧ ∃ response,
      extract_kpis Fixtures.no_columns_request = Return response
      ∧ kpis response = [ revenue_growth_rate; customer_acquisition_cost ]
      ∧ (length (kpis response) ≤ 3)%nat
      ∧ (∀ kpi, kpi ∈ kpis response →
           Spec.matchedFields Fixtures.retail_library
             (columns Fixtures.no_columns_request) (name kpi) = ∅)
      ∧ Spec.ranked Spec.tie_break (kpis response) = true
      ∧ (Spec.ranked_by_affinity Fixtures.retail_library
           (domain Fixtures.no_columns_request) (kpis response) = true
         ↔ (Spec.domainAffinity Fixtures.retail_library
              "Customer Acquisition Cost" (domain Fixtures.no_columns_request)
            <= Spec.domainAffinity Fixtures.retail_library
                 "Revenue Growth Rate" (domain Fixtures.no_columns_request))%Q).
Proof.
  split; [reflexivity |].
  apply (extract_kpis_no_columns Fixtures.retail_library
           Fixtures.no_columns_request).
  reflexivity.
Defined.

(** C10: for every domain string, [get_kpi_library] returns a response
    with exactly the keys domain and kpis, echoing the requested domain
    and listing no KPI. *)
Theorem get_kpi_library_empty (domain : string) :
  ∃ response,
    get_kpi_library domain = Return response
    ∧ response !! "domain" = Some (AStr domain)
    ∧ response !! "kpis" = Some (AList [])
    ∧ dom response = {[ "domain"; "kpis" ]}.
Proof.
  eexists. split; [reflexivity |].
  split; [| split].
  - by rewrite lookup_insert_eq.
  - by rewrite lookup_insert_ne, lookup_singleton_eq.
  - by rewrite dom_insert_L, dom_singleton_L.
Qed.

End KpisProperties.

(** ** Properties of routes/goals.py *)

Section GoalsProperties.
Import Goals.

Lemma map_goal_to_kpis_returns (request : GoalRequest) :
  ∃ response,
    map_goal_to_kpis request = Return response
    ∧ mapped_kpis response
      = [ "Revenue Growth Rate"; "Customer Acquisition Cost" ]
    ∧ dependencies response
      = {[ "Revenue Growth Rate" :=
             [ "Customer Acquisition Cost"; "Average Order Value" ] ]}.
Proof. eexists. repeat split; reflexivity. Qed.

(** An edge of the returned dependency graph leaves Revenue Growth Rate and
    enters one of its two listed dependencies. *)
Lemma depends_payload (a b : string) :
  Spec.depends
    {[ "Revenue Growth Rate" :=
         [ "Customer Acquisition Cost"; "Average Order Value" ] ]} a b →
  a = "Revenue Growth Rate"
  ∧ (b = "Customer Acquisition Cost" ∨ b = "Average Order Value").
Proof.
  intros (ds & Hlookup & Hin).
  apply lookup_singleton_Some in Hlookup as [<- <-].
  split; [reflexivity |].
  apply elem_of_cons in Hin as [-> | Hin]; [by left |].
  apply elem_of_cons in Hin as [-> | Hin]; [by right |].
  by apply elem_of_nil in Hin.
Qed.

(** A path of one or more edges starts with an edge. *)
Lemma tc_first_step {A} (R : relation A) (x z : A) :
  tc R x z → ∃ y, R x y.
Proof. intros [x' y' HR | x' y' z' HR _]; by exists y'. Qed.

Lemma payload_acyclic :
  ¬ Spec.cyclic
      {[ "Revenue Growth Rate" :=
           [ "Customer Acquisition Cost"; "Average Order Value" ] ]}.
Proof.
  intros [a Hpath].
  inversion Hpath as [x y Hedge | x y z Hedge Hrest]; subst.
  - apply depends_payload in Hedge as [-> [? | ?]]; discriminate.
  - apply depends_payload in Hedge as [-> Hy].
    apply tc_first_step in Hrest as [w Hedge].
    apply depends_payload in Hedge as [-> _].
    destruct Hy; discriminate.
Qed.

(** C3, at the goal text "improve efficiency", none of whose words is in
    the lexicon: [map_goal_to_kpis] does not raise UnmappableGoalError, it
    returns a mapping. *)
Lemma map_goal_to_kpis_unmatched_goal :
  Spec.keyword_matches Fixtures.lexicon (goal_text Fixtures.efficiency_goal)
  = []
  ∧ map_goal_to_kpis Fixtures.efficiency_goal ≠ Raise UnmappableGoalError
  ∧ raises (map_goal_to_kpis Fixtures.efficiency_goal) = false.
Proof. split; [vm_compute; reflexivity |]. split; [discriminate | reflexivity]. Qed.

(** C3, amended: for every goal text and available-KPI set,
    [map_goal_to_kpis] raises nothing, UnmappableGoalError included, also
    when the goal text has zero keyword matches; it returns the fixed mapping
    Revenue Growth Rate, Customer Acquisition Cost, never an empty one. *)
Theorem map_goal_to_kpis_never_unmappable (request : GoalRequest) :
  map_goal_to_kpis request ≠ Raise UnmappableGoalError
  ∧ raises (map_goal_to_kpis request) = false
  ∧ ∃ response,
      map_goal_to_kpis request = Return response
      ∧ mapped_kpis response
        = [ "Revenue Growth Rate"; "Customer Acquisition Cost" ]
      ∧ mapped_kpis response ≠ [].
Proof.
  split; [discriminate |]. split; [reflexivity |].
  destruct (map_goal_to_kpis_returns request) as (response & Hret & Hkpis & _).
  exists response. rewrite Hkpis. repeat split; done.
Qed.

(** C5, at the revenue goal and a dependsOn table that holds the entry of
    Revenue Growth Rate the handler's payload lists and lets Customer
    Acquisition Cost depend back on it: the dependency graph over the KPIs
    the handler mapped, restricted to the request's availableKPIs, has the
    cycle Revenue Growth Rate, Customer Acquisition Cost, Revenue Growth
    Rate; [map_goal_to_kpis] returns that mapping with an acyclic graph
    instead of raising CyclicDependencyError. *)
Lemma map_goal_to_kpis_cyclic_fixture :
  ∃ response,
    map_goal_to_kpis Fixtures.revenue_goal = Return response
    ∧ mapped_kpis response
      = [ "Revenue Growth Rate"; "Customer Acquisition Cost" ]
    ∧ Fixtures.cyclic_dependsOn !! "Revenue Growth Rate"
      = dependencies response !! "Revenue Growth Rate"
    ∧ Spec.dependency_graph Fixtures.cyclic_dependsOn
        (mapped_kpis response) (available_kpis Fixtures.revenue_goal)
      = {[ "Revenue Growth Rate" := [ "Customer Acquisition Cost" ];
           "Customer Acquisition Cost" := [ "Revenue Growth Rate" ] ]}
    ∧ Spec.cyclic
        (Spec.dependency_graph Fixtures.cyclic_dependsOn
           (mapped_kpis response) (available_kpis Fixtures.revenue_goal))
    ∧ ¬ Spec.cyclic (dependencies response)
    ∧ ¬ ∃ cycle,
          map_goal_to_kpis Fixtures.revenue_goal
          = Raise (CyclicDependencyError cycle).
Proof.
  eexists. split; [reflexivity |]. split; [reflexivity |].
  split; [reflexivity |]. split; [vm_compute; reflexivity |].
  split; [| split; [exact payload_acyclic | intros [cycle Heq]; discriminate]].
  exists "Revenue Growth Rate".
  apply tc_l with "Customer Acquisition Cost"; [| apply tc_once].
  - exists [ "Customer Acquisition Cost" ]. split; [vm_compute; reflexivity |].
    apply list_elem_of_here.
  - exists [ "Revenue Growth Rate" ]. split; [vm_compute; reflexivity |].
    apply list_elem_of_here.
Qed.

(** C5, amended: [map_goal_to_kpis] reads no dependsOn table; for every
    request it terminates without raising CyclicDependencyError and returns
    the fixed graph in which Revenue Growth Rate depends on Customer
    Acquisition Cost and Average Order Value; that graph is acyclic. *)
Theorem map_goal_to_kpis_graph_acyclic (request : GoalRequest) :
  (∀ cycle, map_goal_to_kpis request ≠ Raise (CyclicDependencyError cycle))
  ∧ ∃ response,
      map_goal_to_kpis request = Return response
      ∧ dependencies response
        = {[ "Revenue Growth Rate" :=
               [ "Customer Acquisition Cost"; "Average Order Value" ] ]}
      ∧ ¬ Spec.cyclic (dependencies response).
Proof.
  split; [discriminate |].
  destruct (map_goal_to_kpis_returns request) as (response & Hret & _ & Hdeps).
  exists response. rewrite Hdeps.
  split; [exact Hret |]. split; [reflexivity | exact payload_acyclic].
Qed.

(** C6, at the available set Revenue Growth Rate, Customer Acquisition
    Cost: the returned mapping lists Average Order Value as a dependency,
    which is not available. *)
Lemma map_goal_to_kpis_unavailable_dependency :
  ∃ response,
    map_goal_to_kpis Fixtures.revenue_goal = Return response
    ∧ dependencies response !! "Revenue Growth Rate"
      = Some [ "Customer Acquisition Cost"; "Average Order Value" ]
    ∧ "Average Order Value"
      ∈ [ "Customer Acquisition Cost"; "Average Order Value" ]
    ∧ ("Average Order Value" ∉ available_kpis Fixtures.revenue_goal)
    ∧ ¬ Spec.dependencies_within (dependencies response)
          (available_kpis Fixtures.revenue_goal).
Proof.
  assert (Hout : "Average Order Value"
                 ∉ available_kpis Fixtures.revenue_goal).
  { intros Hin. cbn in Hin.
    apply elem_of_cons in Hin as [? | Hin]; [discriminate |].
    apply elem_of_cons in Hin as [? | Hin]; [discriminate |].
    by apply elem_of_nil in Hin. }
  eexists. split; [reflexivity |].
  split; [reflexivity |].
  split; [apply list_elem_of_further, list_elem_of_here |].
  split; [exact Hout |].
  intros Hwithin. apply Hout.
  apply (Hwithin "Revenue Growth Rate"
           [ "Customer Acquisition Cost"; "Average Order Value" ]).
  - reflexivity.
  - apply list_elem_of_further, list_elem_of_here.
Qed.

(** C6, amended: for every request, the returned mapping is the fixed one
    in which Revenue Growth Rate depends on Customer Acquisition Cost and
    Average Order Value, so the dependency names in it are exactly those
    two, whatever availableKPIs holds; they all lie in availableKPIs exactly
    when the request lists both of them. *)
Theorem map_goal_to_kpis_dependency_names (request : GoalRequest) :
  ∃ response,
    map_goal_to_kpis request = Return response
    ∧ dependencies response
      = {[ "Revenue Growth Rate" :=
             [ "Customer Acquisition Cost"; "Average Order Value" ] ]}
    ∧ (∀ d,
         (∃ k ds, dependencies response !! k = Some ds ∧ d ∈ ds)
         ↔ d = "Customer Acquisition Cost" ∨ d = "Average Order Value")
    ∧ (∀ k ds d,
         dependencies response !! k = Some ds → d ∈ ds →
         d = "Customer Acquisition Cost" ∨ d = "Average Order Value")
    ∧ (Spec.dependencies_within (dependencies response)
         (available_kpis request)
       ↔ "Customer Acquisition Cost" ∈ available_kpis request
         ∧ "Average Order Value" ∈ available_kpis request).
Proof.
  destruct (map_goal_to_kpis_returns request) as (response & Hret & _ & Hdeps).
  exists response. rewrite Hdeps. split; [exact Hret |].
  split; [reflexivity |]. split; [| split].
  - intros d. split.
    + intros (k & ds & Hlookup & Hin).
      eapply (depends_payload k d). by exists ds.
    + intros Hd.
      exists "Revenue Growth Rate",
        [ "Customer Acquisition Cost"; "Average Order Value" ].
      split; [apply lookup_singleton_eq |].
      destruct Hd as [-> | ->].
      * apply list_elem_of_here.
      * apply list_elem_of_further, list_elem_of_here.
  - intros k ds d Hlookup Hin.
    eapply (depends_payload k d). by exists ds.
  - split.
    + intros Hwithin.
      split; eapply (Hwithin "Revenue Growth Rate"); try reflexivity.
      * apply list_elem_of_here.
      * apply list_elem_of_further, list_elem_of_here.
    + intros [Hcac Haov] k ds d Hlookup Hin.
      destruct (depends_payload k d) as [_ [-> | ->]]; [by exists ds | done..].
Qed.

(** C9, at a request whose returned plan has two actions: the timeline's
    expected_impact values sum to 0.15, which is not within 1e-6 of 1.0. *)
Lemma map_goal_to_kpis_impact_not_normalized :
  ∃ response,
    map_goal_to_kpis Fixtures.revenue_goal = Return response
    ∧ actions response ≠ []
    ∧ Spec.cumulative_impact (timeline response) = Some 0.15%float
    ∧ Spec.normalized 0.15%float = false.
Proof.
  eexists. split; [reflexivity |]. split; [discriminate |].
  split; vm_compute; reflexivity.
Qed.

(** C9, amended: for every request, [map_goal_to_kpis] returns a non-empty
    action plan and a timeline of one weekly bucket whose expected_impact
    is 0.15, so the impacts sum to 0.15; the sum is not normalized to 1.0. *)
Theorem map_goal_to_kpis_impact_sum (request : GoalRequest) :
  ∃ response,
    map_goal_to_kpis request = Return response
    ∧ actions response ≠ []
    ∧ Spec.expected_impact <$> timeline response = [ Some 0.15%float ]
    ∧ Spec.cumulative_impact (timeline response) = Some 0.15%float
    ∧ Spec.normalized 0.15%float = false.
Proof.
  eexists. split; [reflexivity |]. split; [discriminate |].
  repeat split; vm_compute; reflexivity.
Qed.

(** C4, at currentValue = 0 and at targetValue = -5: the parameters are
    invalid, and [estimate_goal_feasibility] returns a feasibility result
    instead of failing with InvalidGoalParametersError. *)
Lemma estimate_goal_feasibility_accepts_invalid :
  Spec.invalid_goal_parameters Fixtures.zero_current_goal = true
  ∧ estimate_goal_feasibility Fixtures.zero_current_goal
    ≠ Raise InvalidGoalParametersError
  ∧ raises (estimate_goal_feasibility Fixtures.zero_current_goal) = false
  ∧ Spec.invalid_goal_parameters Fixtures.negative_target_goal = true
  ∧ raises (estimate_goal_feasibility Fixtures.negative_target_goal) = false.
Proof.
  split; [vm_compute; reflexivity |]. split; [discriminate |].
  split; [reflexivity |]. split; [vm_compute; reflexivity | reflexivity].
Qed.

Lemma estimate_goal_feasibility_returns (request : GoalRequest) :
  ∃ response,
    estimate_goal_feasibility request = Return response
    ∧ response !! "feasible" = Some (ABool true)
    ∧ response !! "confidence" = Some (AFloat 0.75%float)
    ∧ response !! "recommendations" = Some (AList []).
Proof. eexists. split; [reflexivity |]. repeat split; vm_compute; reflexivity. Qed.

(** C4, amended: [estimate_goal_feasibility] does not validate currentValue
    or targetValue; for every request, also one with currentValue <= 0 or
    targetValue <= 0, it raises nothing and returns the fixed result
    feasible = true with confidence 0.75. *)
Theorem estimate_goal_feasibility_total (request : GoalRequest) :
  estimate_goal_feasibility request ≠ Raise InvalidGoalParametersError
  ∧ raises (estimate_goal_feasibility request) = false
  ∧ ∃ response,
      estimate_goal_feasibility request = Return response
      ∧ response !! "feasible" = Some (ABool true)
      ∧ response !! "confidence" = Some (AFloat 0.75%float).
Proof.
  split; [discriminate |]. split; [reflexivity |].
  destruct (estimate_goal_feasibility_returns request)
    as (response & Hret & Hfeasible & Hconfidence & _).
  by exists response.
Qed.

(** C8: with currentValue = 100 and targetValue = 100, for every deadline
    (the present moment included, the handler reads no clock),
    [estimate_goal_feasibility] raises nothing, so no ZeroDivisionError, and
    its result has feasible = true exactly when targetValue <= currentValue,
    which holds. *)
Theorem estimate_goal_feasibility_flat (request : GoalRequest) :
  current_value request = 100%float →
  target_value request = 100%float →
  raises (estimate_goal_feasibility request) = false
  ∧ estimate_goal_feasibility request ≠ Raise ZeroDivisionError
  ∧ ∃ response,
      estimate_goal_feasibility request = Return response
      ∧ (response !! "feasible" = Some (ABool true)
         ↔ PrimFloat.leb (target_value request) (current_value request) = true).
Proof.
  intros Hcurrent Htarget. split; [reflexivity |]. split; [discriminate |].
  destruct (estimate_goal_feasibility_returns request)
    as (response & Hret & Hfeasible & _).
  exists response. split; [exact Hret |].
  rewrite Hcurrent, Htarget. split; [intros _; vm_compute; reflexivity | done].
Qed.

(** A flat goal, 100 to 100. *)
Lemma estimate_goal_feasibility_flat_witness :
  current_value Fixtures.flat_goal = 100%float
  ∧ target_value Fixtures.flat_goal = 100%float
  ∧ raises (estimate_goal_feasibility Fixtures.flat_goal) = false
  ∧ estimate_goal_feasibility Fixtures.flat_goal ≠ Raise ZeroDivisionError
  ∧ ∃ response,
      estimate_goal_feasibility Fixtures.flat_goal = Return response
      ∧ (response !! "feasible" = Some (ABool true)
         ↔ PrimFloat.leb (target_value Fixtures.flat_goal)
             (current_value Fixtures.flat_goal) = true).
Proof.
  split; [reflexivity |]. split; [reflexivity |].
  apply (estimate_goal_feasibility_flat Fixtures.flat_goal); reflexivity.
Defined.

End GoalsProperties.

(** ** Further properties of routes/kpis.py *)

Section KpisPayload.
Import Kpis.

(** X1: the KPIs [extract_kpis] returns have pairwise distinct names, and
    the priority of each one is its position in the list, counted from 1. *)
Theorem extract_kpis_priorities (request : KPIRequest)
    (response : KPIResponse) :
  extract_kpis request = Return response →
  NoDup (name <$> kpis response)
  ∧ ∀ (i : nat) (kpi : KPI),
      kpis response !! i = Some kpi → priority kpi = Z.of_nat i + 1.
Proof.
  intros [= <-]. split.
  - apply (bool_decide_unpack _). vm_compute. exact I.
  - intros [| [| i]] kpi Hlookup; cbn in Hlookup;
      [injection Hlookup as <-; reflexivity ..| discriminate].
Qed.

(** The retail request and the response it gets. *)
Lemma extract_kpis_priorities_witness :
  ∃ response,
    extract_kpis Fixtures.retail_request = Return response
    ∧ NoDup (name <$> kpis response)
    ∧ ∀ (i : nat) (kpi : KPI),
        kpis response !! i = Some kpi → priority kpi = Z.of_nat i + 1.
Proof.
  eexists. split; [reflexivity |].
  apply (extract_kpis_priorities Fixtures.retail_request). reflexivity.
Defined.

(** X2: the response of [get_kpi_library] determines the domain it was
    asked for: two lookups answer alike exactly when the domains are equal. *)
Theorem get_kpi_library_echo (domain1 domain2 : string) :
  get_kpi_library domain1 = get_kpi_library domain2 ↔ domain1 = domain2.
Proof.
  split; [| by intros ->].
  set (asked := λ o : outcome (gmap string Any),
         match o with
         | Return library => Client.get_str "domain" library
         | Raise _ => None
         end).
  assert (Hasked : ∀ domain, asked (get_kpi_library domain) = Some domain).
  { intros domain. unfold asked, get_kpi_library, Client.get_str.
    by rewrite lookup_insert_eq. }
  intros Heq. apply (f_equal asked) in Heq.
  rewrite !Hasked in Heq. by injection Heq.
Qed.

(** X3: the KPIs [extract_kpis] returns are not drawn from the library
    [get_kpi_library] serves for the request's domain: that library lists
    nothing, while two KPIs are extracted. *)
Theorem extract_kpis_outside_library (request : KPIRequest) :
  ∃ response library,
    extract_kpis request = Return response
    ∧ get_kpi_library (domain request) = Return library
    ∧ Client.get_str "domain" library = Some (domain request)
    ∧ Client.get_list "kpis" library = Some []
    ∧ length (kpis response) = 2%nat.
Proof.
  do 2 eexists. split; [reflexivity |]. split; [reflexivity |].
  split; [| split; reflexivity].
  unfold Client.get_str. by rewrite lookup_insert_eq.
Qed.

End KpisPayload.

(** ** Further properties of routes/goals.py *)

Section GoalsPayload.
Import Goals.

(** X4: [map_goal_to_kpis] does not filter the mapping by availableKPIs:
    the mapped KPIs all belong to the available ones exactly when the
    request lists both Revenue Growth Rate and Customer Acquisition Cost,
    and an empty available list still gets two mapped KPIs. *)
Theorem map_goal_to_kpis_ignores_available (request : GoalRequest) :
  ∃ response,
    map_goal_to_kpis request = Return response
    ∧ ((∀ kpi, kpi ∈ mapped_kpis response → kpi ∈ available_kpis request)
       ↔ "Revenue Growth Rate" ∈ available_kpis request
         ∧ "Customer Acquisition Cost" ∈ available_kpis request)
    ∧ (available_kpis request = [] → length (mapped_kpis response) = 2%nat).
Proof.
  eexists. split; [reflexivity |]. cbn [mapped_kpis]. split; [| done].
  split.
  - intros Hall. split; apply Hall.
    + apply list_elem_of_here.
    + apply list_elem_of_further, list_elem_of_here.
  - intros [Hrgr Hcac] kpi Hin.
    apply elem_of_cons in Hin as [-> | Hin]; [exact Hrgr |].
    apply elem_of_cons in Hin as [-> | Hin]; [exact Hcac |].
    by apply elem_of_nil in Hin.
Qed.

(** X5: the parts of a [map_goal_to_kpis] response refer to each other
    consistently: every KPI that has dependencies is a mapped KPI, every
    action title a timeline bucket schedules is the title of an action of
    the plan, the plan's titles are pairwise distinct, and each action's
    priority, impact and effort is one of low, medium, high. *)
Theorem map_goal_to_kpis_references (request : GoalRequest)
    (response : GoalResponse) :
  map_goal_to_kpis request = Return response →
  dom (dependencies response) ⊆ list_to_set (mapped_kpis response)
  ∧ Forall (λ t, t ∈ title <$> actions response)
      (Client.scheduled (timeline response))
  ∧ NoDup (title <$> actions response)
  ∧ Forall (λ a, Client.is_level (priority a) && Client.is_level (impact a)
                 && Client.is_level (effort a) = true)
      (actions response).
Proof.
  intros [= <-]. cbn [dependencies mapped_kpis timeline actions].
  repeat split.
  - rewrite dom_singleton_L. set_solver.
  - apply (bool_decide_unpack _). vm_compute. exact I.
  - apply (bool_decide_unpack _). vm_compute. exact I.
  - repeat constructor.
Qed.

(** The revenue goal and the response it gets. *)
Lemma map_goal_to_kpis_references_witness :
  ∃ response,
    map_goal_to_kpis Fixtures.revenue_goal = Return response
    ∧ dom (dependencies response) ⊆ list_to_set (mapped_kpis response)
    ∧ Forall (λ t, t ∈ title <$> actions response)
        (Client.scheduled (timeline response))
    ∧ NoDup (title <$> actions response)
    ∧ Forall (λ a, Client.is_level (priority a) && Client.is_level (impact a)
                   && Client.is_level (effort a) = true)
        (actions response).
Proof.
  eexists. split; [reflexivity |].
  apply (map_goal_to_kpis_references Fixtures.revenue_goal). reflexivity.
Defined.

Lemma map_goal_to_kpis_scheduled (request : GoalRequest)
    (response : GoalResponse) :
  map_goal_to_kpis request = Return response →
  Client.scheduled (timeline response) = [ "Optimize Marketing Campaigns" ].
Proof. intros [= <-]. vm_compute. reflexivity. Qed.

(** X6: the timeline of a [map_goal_to_kpis] response schedules only the
    first action of the plan; the plan's second action, Improve Conversion
    Rate, is in no weekly bucket. *)
Theorem map_goal_to_kpis_unscheduled_action (request : GoalRequest) :
  ∃ response,
    map_goal_to_kpis request = Return response
    ∧ Client.scheduled (timeline response)
      = title <$> take 1 (actions response)
    ∧ "Improve Conversion Rate" ∈ title <$> actions response
    ∧ "Improve Conversion Rate" ∉ Client.scheduled (timeline response).
Proof.
  eexists. split; [reflexivity |].
  rewrite (map_goal_to_kpis_scheduled request _ eq_refl).
  split; [reflexivity |]. split.
  - apply list_elem_of_further, list_elem_of_here.
  - intros Hin. apply list_elem_of_singleton in Hin. discriminate.
Qed.

(** X7: the KPIs [map_goal_to_kpis] maps a goal to are, in the same order,
    the names of the KPIs [extract_kpis] returns, whatever the two requests
    are; the dependency Average Order Value, which the goal response lists
    for Revenue Growth Rate, is not one of them. *)
Theorem mapped_kpis_are_extracted (kpi_request : Kpis.KPIRequest)
    (goal_request : GoalRequest) :
  ∃ extracted mapped,
    Kpis.extract_kpis kpi_request = Return extracted
    ∧ map_goal_to_kpis goal_request = Return mapped
    ∧ mapped_kpis mapped
      = [ "Revenue Growth Rate"; "Customer Acquisition Cost" ]
    ∧ mapped_kpis mapped = Kpis.name <$> Kpis.kpis extracted
    ∧ dependencies mapped !! "Revenue Growth Rate"
      = Some [ "Customer Acquisition Cost"; "Average Order Value" ]
    ∧ "Average Order Value"
      ∈ [ "Customer Acquisition Cost"; "Average Order Value" ]
    ∧ ("Average Order Value" ∉ Kpis.name <$> Kpis.kpis extracted)
    ∧ ("Average Order Value" ∉ mapped_kpis mapped)
    ∧ ¬ Spec.dependencies_within (dependencies mapped)
          (Kpis.name <$> Kpis.kpis extracted).
Proof.
  assert (Hout : "Average Order Value"
                 ∉ [ "Revenue Growth Rate"; "Customer Acquisition Cost" ]).
  { intros Hin.
    apply elem_of_cons in Hin as [? | Hin]; [discriminate |].
    apply elem_of_cons in Hin as [? | Hin]; [discriminate |].
    by apply elem_of_nil in Hin. }
  do 2 eexists. split; [reflexivity |]. split; [reflexivity |].
  split; [reflexivity |]. split; [reflexivity |]. split; [reflexivity |].
  split; [apply list_elem_of_further, list_elem_of_here |].
  split; [exact Hout |]. split; [exact Hout |].
  intros Hwithin. apply Hout.
  apply (Hwithin "Revenue Growth Rate"
           [ "Customer Acquisition Cost"; "Average Order Value" ]).
  - reflexivity.
  - apply list_elem_of_further, list_elem_of_here.
Qed.

End GoalsPayload.

(** ** Properties of routes/domain.py *)

Section DomainProperties.
Import Domain.

(** X8: the domain [detect_domain] reports is one of the domains
    [get_available_domains] lists, and those are eight pairwise distinct
    strings; the reported confidence lies between 0 and 1. *)
Theorem detect_domain_available (request : DomainRequest) :
  ∃ response available domains,
    detect_domain request = Return response
    ∧ get_available_domains () = Return available
    ∧ Client.get_list "domains" available = Some domains
    ∧ AStr (domain response) ∈ domains
    ∧ length (omap Client.as_str domains) = length domains
    ∧ length domains = 8%nat
    ∧ NoDup (omap Client.as_str domains)
    ∧ PrimFloat.leb 0 (confidence response)
      && PrimFloat.leb (confidence response) 1 = true.
Proof.
  do 3 eexists. split; [reflexivity |]. split; [reflexivity |].
  split; [reflexivity |]. split; [apply list_elem_of_here |].
  split; [reflexivity |]. split; [reflexivity |].
  split; [| vm_compute; reflexivity].
  apply (bool_decide_unpack _). vm_compute. exact I.
Qed.

End DomainProperties.

(** ** Properties of routes/forecast.py *)

Section ForecastProperties.
Import Forecast.

(** X9: the predictions and confidence intervals of [generate_forecast]
    are aligned: as many intervals as predictions, each pair for the same
    date, and each predicted value between its lower and upper bound. *)
Theorem generate_forecast_intervals (request : ForecastRequest)
    (response : ForecastResponse) :
  generate_forecast request = Return response →
  Forall2 (λ prediction interval,
             Client.within_interval prediction interval = true)
    (predictions response) (confidence_intervals response).
Proof.
  intros [= <-]. cbn [predictions confidence_intervals].
  repeat constructor; vm_compute; reflexivity.
Qed.

(** A forecast request for three periods of revenue. *)
Lemma generate_forecast_intervals_witness :
  ∃ response,
    generate_forecast Requests.three_periods = Return response
    ∧ Forall2 (λ prediction interval,
                 Client.within_interval prediction interval = true)
        (predictions response) (confidence_intervals response).
Proof.
  eexists. split; [reflexivity |].
  apply (generate_forecast_intervals Requests.three_periods). reflexivity.
Defined.

(** X10: [generate_forecast] does not read [periods]: it returns two
    predictions for every request, so as many as were asked for exactly
    when two were; zero or a negative number of periods still gets two. *)
Theorem generate_forecast_ignores_periods (request : ForecastRequest) :
  ∃ response,
    generate_forecast request = Return response
    ∧ length (predictions response) = 2%nat
    ∧ (Z.of_nat (length (predictions response)) = periods request
       ↔ periods request = 2)
    ∧ ((periods request ≤ 0)%Z → predictions response ≠ []).
Proof.
  eexists. split; [reflexivity |]. cbn [predictions length].
  split; [reflexivity |]. split; [| done].
  split; intros H; [symmetry; exact H | rewrite H; reflexivity].
Qed.

(** X11: every prediction of [generate_forecast] carries a date, and the
    dates, ISO formatted, are in strictly ascending order. *)
Theorem generate_forecast_dates_ascending (request : ForecastRequest)
    (response : ForecastResponse) :
  generate_forecast request = Return response →
  Forall (λ prediction, is_Some (Client.get_str "date" prediction))
    (predictions response)
  ∧ Client.ascending (omap (Client.get_str "date") (predictions response))
    = true.
Proof.
  intros [= <-]. cbn [predictions]. split.
  - repeat constructor; eexists; vm_compute; reflexivity.
  - vm_compute. reflexivity.
Qed.

(** A forecast request for no period at all. *)
Lemma generate_forecast_dates_ascending_witness :
  ∃ response,
    generate_forecast Requests.no_periods = Return response
    ∧ Forall (λ prediction, is_Some (Client.get_str "date" prediction))
        (predictions response)
    ∧ Client.ascending (omap (Client.get_str "date") (predictions response))
      = true.
Proof.
  eexists. split; [reflexivity |].
  apply (generate_forecast_dates_ascending Requests.no_periods). reflexivity.
Defined.

(** X12: whatever data [generate_scenarios] is given, it returns two
    scenarios with distinct names, the optimistic one assuming a strictly
    higher growth rate than the pessimistic one, each with an empty
    forecast. *)
Theorem generate_scenarios_ordered (data : gmap string Any) :
  ∃ response optimistic pessimistic high low,
    generate_scenarios data = Return response
    ∧ Client.get_list "scenarios" response
      = Some [ ADict optimistic; ADict pessimistic ]
    ∧ Client.get_str "name" optimistic = Some "Optimistic"
    ∧ Client.get_str "name" pessimistic = Some "Pessimistic"
    ∧ Client.growth_rate optimistic = Some high
    ∧ Client.growth_rate pessimistic = Some low
    ∧ PrimFloat.ltb low high = true
    ∧ Client.get_list "forecast" optimistic = Some []
    ∧ Client.get_list "forecast" pessimistic = Some [].
Proof.
  do 5 eexists. split; [reflexivity |]. split; [reflexivity |].
  repeat split; vm_compute; reflexivity.
Qed.

End ForecastProperties.

(** ** Properties of app.py *)

Section AppProperties.
Import App.

(** X13: at every clock reading, the endpoints [root] advertises are
    exactly the routers the application includes: one entry per
    [include_router] call, keyed by its tag and holding its prefix. *)
Theorem root_advertises_routers (now : string) :
  ∃ response endpoints,
    root now = Return response
    ∧ Client.get_str "timestamp" response = Some now
    ∧ Client.get_dict "endpoints" response = Some endpoints
    ∧ endpoints
      = list_to_map ((λ inc, (tag inc, AStr (prefix inc))) <$> included_routers)
    ∧ size endpoints = length included_routers.
Proof.
  do 2 eexists. split; [reflexivity |]. split; [vm_compute; reflexivity |].
  split; [vm_compute; reflexivity |].
  split; vm_compute; reflexivity.
Qed.

(** X14: the application declares twelve routes; no two of them share
    both method and path template, and each handler function is mounted
    exactly once. *)
Theorem routes_distinct :
  NoDup ((λ r, (method r, path r)) <$> routes)
  ∧ NoDup (endpoint <$> routes)
  ∧ length routes = 12%nat.
Proof.
  split; [| split; [| reflexivity]];
    apply (bool_decide_unpack _); vm_compute; exact I.
Qed.

(** X15: every route mounted from an included router is a route of the
    application, and its path lies under the prefix [root] advertises for
    the router's tag. *)
Theorem routes_under_advertised_prefix (now : string) (inc : Included)
    (r : Route) :
  inc ∈ included_routers →
  r ∈ include_router inc →
  r ∈ routes
  ∧ Client.get_str (tag inc) (Client.advertised (root now))
    = Some (prefix inc)
  ∧ String.prefix (prefix inc) (path r) = true.
Proof.
  intros Hinc Hr.
  assert (Hall :
    Forall (λ inc,
      Forall (λ r,
        r ∈ routes
        ∧ Client.get_str (tag inc) (Client.advertised (root ""))
          = Some (prefix inc)
        ∧ String.prefix (prefix inc) (path r) = true)
        (include_router inc))
      included_routers).
  { apply (bool_decide_unpack _). vm_compute. exact I. }
  rewrite Forall_forall in Hall. specialize (Hall inc Hinc).
  rewrite Forall_forall in Hall. exact (Hall r Hr).
Qed.

(** The KPI router and its extraction route. *)
Lemma routes_under_advertised_prefix_witness :
  {| router := kpis_router; prefix := "/api/ai/kpis"; tag := "kpis" |}
    ∈ included_routers
  ∧ {| method := "POST"; path := "/api/ai/kpis/extract";
       endpoint := "extract_kpis" |}
      ∈ include_router
          {| router := kpis_router; prefix := "/api/ai/kpis"; tag := "kpis" |}
  ∧ {| method := "POST"; path := "/api/ai/kpis/extract";
       endpoint := "extract_kpis" |} ∈ routes
  ∧ Client.get_str "kpis" (Client.advertised (root "2026-01-01T00:00:00"))
    = Some "/api/ai/kpis"
  ∧ String.prefix "/api/ai/kpis" "/api/ai/kpis/extract" = true.
Proof.
  split; [apply list_elem_of_further, list_elem_of_here |].
  split; [apply list_elem_of_here |].
  apply (routes_under_advertised_prefix "2026-01-01T00:00:00"
           {| router := kpis_router; prefix := "/api/ai/kpis";
              tag := "kpis" |}
           {| method := "POST"; path := "/api/ai/kpis/extract";
              endpoint := "extract_kpis" |}).
  - apply list_elem_of_further, list_elem_of_here.
  - apply list_elem_of_here.
Defined.

(** Two templates that match the same segments overlap. *)
Lemma segment_matches_overlap (t1 t2 s : string) :
  segment_matches t1 s = true → segment_matches t2 s = true →
  segment_overlap t1 t2 = true.
Proof.
  unfold segment_matches, segment_overlap.
  destruct (is_param t1), (is_param t2); intros H1 H2; try done.
  - apply String.eqb_eq in H2 as ->. exact H1.
  - apply String.eqb_eq in H1 as ->. exact H2.
  - apply String.eqb_eq in H1 as ->. apply String.eqb_eq in H2 as ->.
    apply String.eqb_refl.
Qed.

Lemma segments_match_overlap (ts1 ts2 ss : list string) :
  segments_match ts1 ss = true → segments_match ts2 ss = true →
  segments_overlap ts1 ts2 = true.
Proof.
  revert ts2 ss.
  induction ts1 as [| t1 ts1 IH]; intros [| t2 ts2] [| s ss]; cbn; try done.
  intros [H1 Hrest1]%andb_true_iff [H2 Hrest2]%andb_true_iff.
  apply andb_true_iff. split.
  - exact (segment_matches_overlap t1 t2 s H1 H2).
  - exact (IH ts2 ss Hrest1 Hrest2).
Qed.

Example routes_match_their_own_paths :
  Forall (λ r, matches (path r) (path r) = true) routes.
Proof. apply (bool_decide_unpack _). vm_compute. exact I. Qed.

(** X16: no request path is matched by two different routes of the same
    method, a path parameter such as [{domain}] matching any non-empty
    segment; so no handler is shadowed by a route declared before it. *)
Theorem routes_never_overlap (r1 r2 : Route) (request_path : string) :
  r1 ∈ routes → r2 ∈ routes →
  method r1 = method r2 →
  matches (path r1) request_path = true →
  matches (path r2) request_path = true →
  r1 = r2.
Proof.
  intros Hr1 Hr2 Hmethod Hm1 Hm2.
  assert (Hoverlap : overlap (path r1) (path r2) = true)
    by exact (segments_match_overlap _ _ _ Hm1 Hm2).
  assert (Hall :
    Forall (λ a,
      Forall (λ b,
        method a = method b → overlap (path a) (path b) = true → a = b)
        routes)
      routes).
  { apply (bool_decide_unpack _). vm_compute. exact I. }
  rewrite Forall_forall in Hall. specialize (Hall r1 Hr1).
  rewrite Forall_forall in Hall. exact (Hall r2 Hr2 Hmethod Hoverlap).
Qed.

(** The library route against a lookup of the retail library. *)
Lemma routes_never_overlap_witness :
  {| method := "GET"; path := "/api/ai/kpis/library/{domain}";
     endpoint := "get_kpi_library" |} ∈ routes
  ∧ matches "/api/ai/kpis/library/{domain}" "/api/ai/kpis/library/retail"
    = true
  ∧ matches "/api/ai/kpis/library/{domain}" "/api/ai/kpis/library/" = false
  ∧ matches "/api/ai/kpis/library/{domain}" "/api/ai/kpis/library/a/b"
    = false
  ∧ {| method := "GET"; path := "/api/ai/kpis/library/{domain}";
       endpoint := "get_kpi_library" |}
    = {| method := "GET"; path := "/api/ai/kpis/library/{domain}";
         endpoint := "get_kpi_library" |}.
Proof.
  assert (Hin : {| method := "GET"; path := "/api/ai/kpis/library/{domain}";
                   endpoint := "get_kpi_library" |} ∈ routes).
  { apply (bool_decide_unpack _). vm_compute. exact I. }
  split; [exact Hin |]. split; [vm_compute; reflexivity |].
  split; [vm_compute; reflexivity |]. split; [vm_compute; reflexivity |].
  apply (routes_never_overlap _ _ "/api/ai/kpis/library/retail" Hin Hin);
    [reflexivity | vm_compute; reflexivity | vm_compute; reflexivity].
Defined.

End AppProperties.
